(** * A shallow embedding of the certificate generator of src/app.py

    The Flask service of [src/app.py] is modelled function by function:
    - a request body (a JSON object of text fields) is a [gmap string string];
      [request.get_json()] returning [None] is the [option] around it;
    - Python strings are [string]s read as sequences of characters, and
      [str.lower]/[str.upper] act on the ASCII letters;
    - the nondeterministic inputs of the composer ([datetime.now()] and
      [uuid.uuid4().hex]) are explicit arguments;
    - the render pipeline threads a file system (the set of existing paths)
      and a log through a small exception-and-state monad, with the external
      effects (temporary file name, the write, the wkhtmltopdf call, the
      unlink) supplied by an oracle record. *)

From stdpp Require Import base gmap strings list.
From Stdlib Require Import Ascii.

Open Scope string_scope.

(* ------------------------------------------------------------------ *)
(** ** Python string helpers *)

(** Case mapping on one character.  This is [str.lower] and [str.upper]
    on the 7-bit ASCII range; beyond it Python's Unicode case mapping does
    more (['ß'.upper() == 'SS'], ['ǅ'.lower() == 'ǆ']), which is not
    modelled: these agree with Python on ASCII text only. *)
Definition lower_char (c : ascii) : ascii :=
  let n := nat_of_ascii c in
  if (65 <=? n)%nat && (n <=? 90)%nat then ascii_of_nat (n + 32)%nat else c.

Definition upper_char (c : ascii) : ascii :=
  let n := nat_of_ascii c in
  if (97 <=? n)%nat && (n <=? 122)%nat then ascii_of_nat (n - 32)%nat else c.

(** [str.lower()] *)
Fixpoint lower (s : string) : string :=
  match s with
  | EmptyString => EmptyString
  | String c s' => String (lower_char c) (lower s')
  end.

(** [str.upper()] *)
Fixpoint upper (s : string) : string :=
  match s with
  | EmptyString => EmptyString
  | String c s' => String (upper_char c) (upper s')
  end.

Fixpoint is_prefix (p s : string) : bool :=
  match p, s with
  | EmptyString, _ => true
  | String a p', String b s' => Ascii.eqb a b && is_prefix p' s'
  | String _ _, EmptyString => false
  end.

(** Python's [needle in hay] on strings. *)
Fixpoint contains (needle hay : string) : bool :=
  is_prefix needle hay ||
  match hay with
  | EmptyString => false
  | String _ hay' => contains needle hay'
  end.

(** Python's [s[:n]]: the whole string when it is shorter. *)
Definition slice_to (n : nat) (s : string) : string := String.substring 0 n s.

(* ------------------------------------------------------------------ *)
(** ** [ProfessionalCertificateGenerator.get_status_badge_style] *)

Definition style_none : string := "background: #6c757d; color: white;".
Definition style_success : string :=
  "background: linear-gradient(45deg, #28a745, #20c997); color: white; box-shadow: 0 4px 15px rgba(40, 167, 69, 0.4);".
Definition style_failure : string :=
  "background: linear-gradient(45deg, #dc3545, #e74c3c); color: white; box-shadow: 0 4px 15px rgba(220, 53, 69, 0.4);".
Definition style_other : string :=
  "background: linear-gradient(45deg, #ffc107, #fd7e14); color: #212529; box-shadow: 0 4px 15px rgba(255, 193, 7, 0.4);".

(** Python's truth value of a [str] or [None]: [not status]. *)
Definition py_falsy_str (status : option string) : bool :=
  match status with
  | None => true
  | Some s => String.eqb s EmptyString
  end.

Definition has_success_token (status_lower : string) : bool :=
  contains "pass" status_lower || contains "success" status_lower
  || contains "complete" status_lower.

Definition has_failure_token (status_lower : string) : bool :=
  contains "fail" status_lower || contains "error" status_lower.

Definition get_status_badge_style (status : option string) : string :=
  if py_falsy_str status then style_none
  else
    let status_lower := lower (default EmptyString status) in
    if has_success_token status_lower then style_success
    else if has_failure_token status_lower then style_failure
    else style_other.

Example style_passed : get_status_badge_style (Some "PASSED") = style_success.
Proof. reflexivity. Qed.
Example style_failed : get_status_badge_style (Some "Failed - error") = style_failure.
Proof. reflexivity. Qed.
Example style_empty : get_status_badge_style (Some "") = style_none.
Proof. reflexivity. Qed.
Example style_tie : get_status_badge_style (Some "passed then failed") = style_success.
Proof. reflexivity. Qed.
Example style_unrec : get_status_badge_style (Some "pending") = style_other.
Proof. reflexivity. Qed.

(* ------------------------------------------------------------------ *)
(** ** [ProfessionalCertificateGenerator.create_certificate_html]

    The composed document is a list of pieces: literal markup of the
    template and the interpolated values ([{...}] in the f-string), each
    tagged with the name of the slot it fills.  The literal markup between
    the slots is kept as the labels that surround each value in the
    template; the embedded style sheet is abbreviated to its first rule. *)

Inductive piece :=
| Lit (text : string)
| Hole (slot : string) (value : string).

(** [data.get(key, dflt)] *)
Definition get (data : gmap string string) (key dflt : string) : string :=
  default dflt (data !! key).

(** A labelled item of the certificate info bar. *)
Definition info_item (label slot value : string) : list piece :=
  [Lit ("<span class='info-label'>" +:+ label +:+ "</span><span class='info-value'>");
   Hole slot value; Lit "</span>"].

(** A row of a data section, [data.get(key, 'N/A')]; the slot is named
    after the key. *)
Definition data_row (data : gmap string string) (label key : string) : list piece :=
  [Lit ("<div class='data-label'>" +:+ label +:+ "</div><div class='data-value'>");
   Hole key (get data key "N/A"); Lit "</div>"].

(** The random default identifier [f'CERT-{uuid.uuid4().hex[:8].upper()}']. *)
Definition synth_cert_id (uuid_hex : string) : string :=
  "CERT-" +:+ upper (slice_to 8 uuid_hex).

Definition create_certificate_html (data : gmap string string)
    (current_time uuid_hex : string) : list piece :=
  let issue_date := get data "issue_date" current_time in
  let cert_id := get data "certificate_id" (synth_cert_id uuid_hex) in
  let final_status := get data "final_status" "VERIFIED" in
  let status_badge_style := get_status_badge_style (Some final_status) in
  [Lit "<!DOCTYPE html><html lang='en'><head><meta charset='UTF-8'><title>Certificate of Authenticity - ";
   Hole "title" cert_id;
   Lit "</title><style>.status-badge { ";
   Hole "status_badge_style" status_badge_style;
   Lit " }</style></head><body><div class='certificate-container'><div class='cert-info-bar'>"]
  ++ info_item "Certificate ID" "info_certificate_id" cert_id
  ++ info_item "Issue Date" "info_issue_date" issue_date
  ++ info_item "Technician" "technician_name" (get data "technician_name" "N/A")
  ++ [Lit "<span class='info-label'>Status</span><span class='status-badge'>";
      Hole "final_status" final_status; Lit "</span></div>"]
  (* Device Information *)
  ++ data_row data "Device Type" "device_type"
  ++ data_row data "Manufacturer" "manufacturer"
  ++ data_row data "Model" "model"
  ++ data_row data "Serial Number" "serial_number"
  ++ data_row data "Asset Tag" "asset_tag"
  ++ data_row data "Capacity" "capacity"
  ++ data_row data "Interface" "interface"
  ++ data_row data "Firmware Version" "firmware_version"
  (* Sanitization Process *)
  ++ data_row data "Method Used" "sanitization_method"
  ++ data_row data "Standard Compliance" "standard_compliance"
  ++ data_row data "Number of Passes" "number_of_passes"
  ++ data_row data "Algorithm" "algorithm"
  ++ data_row data "Start Time" "start_time"
  ++ data_row data "Duration" "duration"
  ++ data_row data "Software Used" "software_used"
  ++ data_row data "Software Version" "software_version"
  (* Verification Results *)
  ++ data_row data "Pre-wipe Status" "pre_wipe_verification"
  ++ data_row data "Post-wipe Status" "post_wipe_verification"
  ++ data_row data "Verification Method" "verification_method"
  ++ data_row data "Sectors Processed" "sectors_processed"
  ++ data_row data "Data Remnants" "data_remnants"
  ++ data_row data "OS Installation" "os_installation_status"
  ++ data_row data "OS Version" "os_version"
  ++ data_row data "Boot Test" "boot_test_result"
  (* Additional Information *)
  ++ data_row data "Customer Name" "customer_name"
  ++ data_row data "Work Order" "work_order"
  ++ data_row data "Location" "location"
  ++ data_row data "Witness" "witness_name"
  ++ data_row data "Temperature" "temperature"
  ++ data_row data "Humidity" "humidity"
  ++ data_row data "Notes" "notes"
  (* Signatures *)
  ++ [Lit "<div class='signature-role'>Certified Technician</div><div class='signature-name'>";
      Hole "signature_technician_name" (get data "technician_name" "John Smith");
      Lit "</div><div class='signature-date'>Date: ";
      Hole "signature_technician_date" (get data "technician_date" (slice_to 10 issue_date));
      Lit "</div><div class='signature-role'>Quality Supervisor</div><div class='signature-name'>";
      Hole "signature_supervisor_name" (get data "supervisor_name" "Jane Doe");
      Lit "</div><div class='signature-date'>Date: ";
      Hole "signature_supervisor_date" (get data "supervisor_date" (slice_to 10 issue_date));
  (* Footer *)
      Lit "</div><div class='qr-code'>QR CODE<br>";
      Hole "qr_code" cert_id;
      Lit "</div><p class='footer-text'>Generated: ";
      Hole "footer_generated" current_time;
      Lit " | Document ID: ";
      Hole "footer_document_id" cert_id;
      Lit " | Verification: secure-verify.com/";
      Hole "footer_verification" (lower cert_id);
      Lit "</p></div></body></html>"].

Definition piece_text (p : piece) : string :=
  match p with Lit t => t | Hole _ v => v end.

(** The [html_content] string. *)
Definition html_text (doc : list piece) : string :=
  foldr (fun p acc => piece_text p +:+ acc) EmptyString doc.

(** The values interpolated into a slot, in document order. *)
Definition slot_values (slot : string) (doc : list piece) : list string :=
  omap (fun p => match p with
                 | Hole s v => if String.eqb s slot then Some v else None
                 | Lit _ => None
                 end) doc.

(** The fields rendered with the default ['N/A'] by [data.get(key, 'N/A')]. *)
Definition na_fields : list string :=
  ["technician_name"; "device_type"; "manufacturer"; "model"; "serial_number";
   "asset_tag"; "capacity"; "interface"; "firmware_version";
   "sanitization_method"; "standard_compliance"; "number_of_passes"; "algorithm";
   "start_time"; "duration"; "software_used"; "software_version";
   "pre_wipe_verification"; "post_wipe_verification"; "verification_method";
   "sectors_processed"; "data_remnants"; "os_installation_status"; "os_version";
   "boot_test_result"; "customer_name"; "work_order"; "location"; "witness_name";
   "temperature"; "humidity"; "notes"].

(** Every attribute the composer reads. *)
Definition composer_fields : list string :=
  na_fields ++ ["issue_date"; "certificate_id"; "final_status";
                "technician_date"; "supervisor_name"; "supervisor_date"].

Example compose_empty_ids :
  slot_values "footer_verification"
    (create_certificate_html ∅ "2024-03-15 14:30:00" "0123456789abcdef0123456789abcdef")
  = ["cert-01234567"].
Proof. reflexivity. Qed.
Example compose_empty_tech :
  slot_values "signature_technician_name"
    (create_certificate_html ∅ "2024-03-15 14:30:00" "0123456789abcdef0123456789abcdef")
  = ["John Smith"].
Proof. reflexivity. Qed.

(* ------------------------------------------------------------------ *)
(** ** The render pipeline: exceptions, file system and log *)

(** The exceptions raised along [create_certificate]: [OSError] from the
    file system ([os.unlink]), [UnicodeEncodeError] from writing the
    temporary file, [IOError] from [pdfkit] (wkhtmltopdf missing or
    exiting with an error), [ValueError] from werkzeug's header check in
    [send_file]. *)
Inductive exn :=
| OSError (msg : string)
| UnicodeEncodeError (msg : string)
| IOError (msg : string)
| ValueError (msg : string).

(** [str(e)] *)
Definition exn_str (e : exn) : string :=
  match e with OSError m | UnicodeEncodeError m | IOError m | ValueError m => m end.

Record world := { fs : gset string; log : list string }.

(** A computation that may raise, threading the world. *)
Definition M (A : Type) : Type := world -> (exn + A) * world.

#[global] Instance M_ret : MRet M := fun A x w => (inr x, w).
#[global] Instance M_bind : MBind M := fun A B f m w =>
  match m w with
  | (inl e, w') => (inl e, w')
  | (inr x, w') => f x w'
  end.

Definition raise {A} (e : exn) : M A := fun w => (inl e, w).

(** [try: body finally: fin]: an exception of [fin] replaces the outcome
    of [body]; otherwise the outcome of [body] stands. *)
Definition try_finally {A} (body : M A) (fin : M unit) : M A := fun w =>
  match body w with
  | (r, w1) =>
      match fin w1 with
      | (inl e, w2) => (inl e, w2)
      | (inr _, w2) => (r, w2)
      end
  end.

(** [try: body except Exception as e: handler(e)] *)
Definition try_except {A} (body : M A) (handler : exn -> M A) : M A := fun w =>
  match body w with
  | (inl e, w1) => handler e w1
  | ok => ok
  end.

Definition log_msg (m : string) : M unit :=
  fun w => (inr tt, {| fs := fs w; log := log w ++ [m] |}).

(** The behaviour of the environment during one call. *)
Record oracle := {
  tmp_path : string;            (* the name chosen by NamedTemporaryFile *)
  write_result : option exn;    (* temp_html.write(html_content) *)
  render_result : exn + string; (* pdfkit.from_file(...) *)
  unlink_result : option exn    (* os.unlink(temp_html_path) *)
}.

(** [tempfile.NamedTemporaryFile(mode='w', suffix='.html', delete=False)]
    creates the file; with [delete=False] leaving the [with] block, also by
    an exception, does not remove it. *)
Definition named_temporary_file (o : oracle) : M string :=
  fun w => (inr (tmp_path o), {| fs := {[tmp_path o]} ∪ fs w; log := log w |}).

Definition file_write (o : oracle) (text : string) : M unit :=
  match write_result o with Some e => raise e | None => mret tt end.

Definition pdfkit_from_file (o : oracle) (path : string) : M string :=
  match render_result o with inl e => raise e | inr pdf => mret pdf end.

Definition path_exists (p : string) : M bool := fun w => (inr (bool_decide (p ∈ fs w)), w).

Definition os_unlink (o : oracle) (p : string) : M unit :=
  match unlink_result o with
  | Some e => raise e
  | None => fun w => (inr tt, {| fs := fs w ∖ {[p]}; log := log w |})
  end.

(** The generator object: [pdfkit_config] is set when a wkhtmltopdf
    binary was found on one of the Windows paths. *)
Record generator := { pdfkit_config : bool }.

(** The Windows installation paths tried by [setup_wkhtmltopdf_config];
    the third one embeds [os.getenv('USERNAME', '')]. *)
Definition windows_paths (username : option string) : list string :=
  ["C:\Program Files\wkhtmltopdf\bin\wkhtmltopdf.exe";
   "C:\Program Files (x86)\wkhtmltopdf\bin\wkhtmltopdf.exe";
   "C:\Users\" +:+ default EmptyString username +:+ "\AppData\Local\Programs\wkhtmltopdf\bin\wkhtmltopdf.exe";
   "C:\wkhtmltopdf\bin\wkhtmltopdf.exe"].

(** [for path in possible_paths: if os.path.exists(path): ...; break] *)
Fixpoint first_existing (exists_ : string -> bool) (paths : list string) : option string :=
  match paths with
  | [] => None
  | p :: ps => if exists_ p then Some p else first_existing exists_ ps
  end.

Definition dquote : string := String (ascii_of_nat 34) EmptyString.

(** [pdfkit.configuration(wkhtmltopdf=path)]: the constructor opens the
    file ([with open(self.wkhtmltopdf)]) and turns a failure into an
    [IOError]; [can_open] says whether [open] succeeds on the path (it
    fails on a directory or an unreadable file). *)
Definition pdfkit_configuration (can_open : string -> bool) (path : string) : exn + string :=
  if can_open path then inr path
  else inl (IOError ("No wkhtmltopdf executable found: " +:+ dquote +:+ path +:+ dquote
    +:+ "
If this file exists please check that this process can read it or you can pass path to it manually in method call, check README. Otherwise please install wkhtmltopdf - https://github.com/JazzCore/python-pdfkit/wiki/Installing-wkhtmltopdf")).

(** [ProfessionalCertificateGenerator.setup_wkhtmltopdf_config]: the
    configuration given to pdfkit (the binary path, or [None]) and the log
    lines, or the exception [pdfkit.configuration] raises, for the value of
    [platform.system()], the [USERNAME] variable, [os.path.exists] and
    [open] on the machine. *)
Definition setup_wkhtmltopdf_config (system : string) (username : option string)
    (exists_ can_open : string -> bool) : exn + (option string * list string) :=
  if String.eqb system "Windows" then
    match first_existing exists_ (windows_paths username) with
    | Some path =>
        match pdfkit_configuration can_open path with
        | inl e => inl e
        | inr config => inr (Some config, ["Found wkhtmltopdf at: " +:+ path])
        end
    | None => inr (None, ["wkhtmltopdf not found in common paths, using system PATH"])
    end
  else inr (None, []).

(** The generator built by [__init__] (a configuration object is truthy),
    or the exception that aborts it. *)
Definition make_generator (system : string) (username : option string)
    (exists_ can_open : string -> bool) : exn + generator :=
  match setup_wkhtmltopdf_config system username exists_ can_open with
  | inl e => inl e
  | inr (config, _) => inr {| pdfkit_config := bool_decide (is_Some config) |}
  end.

(** [ProfessionalCertificateGenerator.create_certificate] *)
Definition create_certificate (g : generator) (o : oracle) (data : gmap string string)
    (current_time uuid_hex : string) : M string :=
  try_except
    (log_msg "Starting certificate generation...";;
     let html_content := html_text (create_certificate_html data current_time uuid_hex) in
     log_msg "HTML content generated";;
     temp_html_path ← named_temporary_file o;
     file_write o html_content;;
     log_msg "Temporary HTML file created";;
     try_finally
       (log_msg "Starting PDF generation with wkhtmltopdf...";;
        (if pdfkit_config g then log_msg "Using configured wkhtmltopdf path"
         else log_msg "Using system PATH for wkhtmltopdf");;
        pdf_data ← pdfkit_from_file o temp_html_path;
        log_msg "PDF generated successfully";;
        mret pdf_data)
       (path_exists temp_html_path ≫= fun (b : bool) =>
        if b then (os_unlink o temp_html_path;; log_msg "Temporary HTML file cleaned up")
        else mret tt))
    (fun e => log_msg ("Error creating certificate: " +:+ exn_str e);;
              log_msg "Full traceback";;
              raise e).

(* ------------------------------------------------------------------ *)
(** ** The Flask routes *)

Inductive jval := JStr (s : string) | JBool (b : bool) | JNat (n : nat).

(** [jsonify(body), code] or [send_file(...)]. *)
Inductive response :=
| JsonResp (code : nat) (body : list (string * jval))
| FileResp (content : string) (download_name : string) (mimetype : string).

(** Python's [not data] on the result of [request.get_json()]. *)
Definition py_falsy_map (json : option (gmap string string)) : bool :=
  match json with
  | None => true
  | Some data => bool_decide (data = ∅)
  end.

Definition no_data_response : response :=
  JsonResp 400 [("error", JStr "No data provided")].

(** The clock readings a request takes: [datetime.now()] formatted as
    [%Y-%m-%d %H:%M:%S] (in the composer), [.isoformat()] and
    [%Y%m%d_%H%M%S]. *)
Record clock := { now_text : string; now_iso : string; now_stamp : string }.

(** A line break (CR or LF) in a header value. *)
Definition has_crlf (s : string) : bool :=
  contains (String (ascii_of_nat 10) EmptyString) s
  || contains (String (ascii_of_nat 13) EmptyString) s.

(** [send_file(buffer, as_attachment=True, download_name=..., mimetype=...)]:
    werkzeug puts the download name into the [Content-Disposition] header
    and refuses a header value holding a newline with a [ValueError]. *)
Definition send_file (content download_name mimetype : string) : M response :=
  if has_crlf download_name
  then raise (ValueError "Header values must not contain newline characters.")
  else mret (FileResp content download_name mimetype).

Section Routes.

Variable g : generator.
Variable o : oracle.
(** [base64.b64encode(...).decode('utf-8')] *)
Variable b64encode : string -> string.
Variable clk : clock.
Variable uuid_hex : string.

(** [generate_certificate] *)
Definition generate_certificate (json : option (gmap string string)) : M response :=
  try_except
    (match json with
     | Some data =>
         if py_falsy_map json then mret no_data_response
         else
           log_msg "Generating certificate";;
           pdf_buffer ← create_certificate g o data (now_text clk) uuid_hex;
           let pdf_base64 := b64encode pdf_buffer in
           mret (JsonResp 200
             [("success", JBool true);
              ("message", JStr "Professional certificate generated successfully");
              ("pdf_base64", JStr pdf_base64);
              ("filename", JStr ("certificate_" +:+ get data "certificate_id" "unknown" +:+ ".pdf"));
              ("generated_at", JStr (now_iso clk))])
     | None => mret no_data_response
     end)
    (fun e => log_msg ("Error generating certificate: " +:+ exn_str e);;
              mret (JsonResp 500
                [("success", JBool false);
                 ("error", JStr ("Failed to generate certificate: " +:+ exn_str e))])).

(** [generate_certificate_file] *)
Definition generate_certificate_file (json : option (gmap string string)) : M response :=
  try_except
    (match json with
     | Some data =>
         if py_falsy_map json then mret no_data_response
         else
           log_msg "Generating certificate file";;
           pdf_buffer ← create_certificate g o data (now_text clk) uuid_hex;
           let filename := "certificate_" +:+ get data "certificate_id" "unknown"
                           +:+ "_" +:+ now_stamp clk +:+ ".pdf" in
           send_file pdf_buffer filename "application/pdf"
     | None => mret no_data_response
     end)
    (fun e => log_msg ("Error generating certificate file: " +:+ exn_str e);;
              mret (JsonResp 500
                [("success", JBool false);
                 ("error", JStr ("Failed to generate certificate: " +:+ exn_str e))])).

(** [preview_certificate]: the composer raises nothing, so the [except]
    branch is unreachable. *)
Definition preview_certificate (json : option (gmap string string)) : response :=
  match json with
  | Some data =>
      if py_falsy_map json then no_data_response
      else JsonResp 200
             [("success", JBool true);
              ("html_content", JStr (html_text (create_certificate_html data (now_text clk) uuid_hex)));
              ("message", JStr "Professional certificate preview generated")]
  | None => no_data_response
  end.

(** [test_endpoint]: [len(data) if data else 0]. *)
Definition test_endpoint (json : option (gmap string string)) : response :=
  JsonResp 200
    [("message", JStr "Professional Certificate API is working");
     ("received_params", JNat (match json with
                               | Some data => if py_falsy_map json then 0 else size data
                               | None => 0
                               end));
     ("timestamp", JStr (now_iso clk))].

End Routes.

(** A structured error response of the routes: a JSON body with an
    ["error"] entry and a 4xx/5xx code. *)
Definition is_error_response (r : response) : Prop :=
  match r with
  | JsonResp code body => (400 <= code)%nat /\ (exists m, ("error", JStr m) ∈ body)
  | FileResp _ _ _ => False
  end.

(* ================================================================== *)
(** * Properties *)

(* ------------------------------------------------------------------ *)
(** ** Status classification *)

Definition badge_styles : list string :=
  [style_none; style_success; style_failure; style_other].

Lemma badge_styles_NoDup : NoDup badge_styles.
Proof. unfold badge_styles. repeat constructor; set_solver. Qed.

Lemma get_status_badge_style_in (st : option string) :
  get_status_badge_style st ∈ badge_styles.
Proof.
  unfold get_status_badge_style, badge_styles.
  destruct (py_falsy_str st); [set_solver|].
  destruct (has_success_token _); [set_solver|].
  destruct (has_failure_token _); set_solver.
Qed.

(** C1 (counterexample): an absent status and an unrecognised non-empty
    status get two different styles: the grey one for [None] and the amber
    one for ["pending"]; within the composer an absent [final_status]
    defaults to ["VERIFIED"] and also gets the amber style. *)
Lemma C1_counterexample :
  get_status_badge_style None = style_none /\
  get_status_badge_style (Some "pending") = style_other /\
  style_none <> style_other /\
  slot_values "status_badge_style"
    (create_certificate_html ∅ "2024-03-15 14:30:00" "0123456789abcdef0123456789abcdef")
  = [style_other].
Proof. split; [reflexivity|]. split; [reflexivity|]. split; [discriminate|reflexivity]. Qed.

(** The badge slot of a composed document holds the style of
    [data.get('final_status', 'VERIFIED')]. *)
Lemma badge_slot (data : gmap string string) (current_time uuid_hex : string) :
  slot_values "status_badge_style" (create_certificate_html data current_time uuid_hex)
  = [get_status_badge_style (Some (get data "final_status" "VERIFIED"))].
Proof. reflexivity. Qed.

(** C1 (amended): the badge style is a total function of the optional
    status into four distinct styles: [None] or the empty string give the
    grey style; otherwise a lower-cased status containing "pass", "success"
    or "complete" gives the green style; else one containing "fail" or
    "error" gives the red style; every other non-empty status gives the
    amber style.  Unrecognised and absent statuses never get the green or
    red style.  In the composer an absent [final_status] defaults to
    ["VERIFIED"], whose badge is the amber style. *)
Theorem C1_badge_four_styles :
  (forall st, py_falsy_str st = true -> get_status_badge_style st = style_none) /\
  (forall s, has_success_token (lower s) = true ->
             get_status_badge_style (Some s) = style_success) /\
  (forall s, has_success_token (lower s) = false -> has_failure_token (lower s) = true ->
             get_status_badge_style (Some s) = style_failure) /\
  (forall s, s <> EmptyString ->
             has_success_token (lower s) = false -> has_failure_token (lower s) = false ->
             get_status_badge_style (Some s) = style_other) /\
  (forall st, get_status_badge_style st ∈ badge_styles) /\
  NoDup badge_styles /\
  (forall data current_time uuid_hex, data !! "final_status" = None ->
   slot_values "status_badge_style" (create_certificate_html data current_time uuid_hex)
   = [style_other]).
Proof.
  split; [|split; [|split; [|split; [|split; [|split]]]]].
  - intros st H. unfold get_status_badge_style. by rewrite H.
  - intros s H. unfold get_status_badge_style; simpl.
    destruct (String.eqb_spec s EmptyString) as [->|_]; [discriminate H|].
    by rewrite H.
  - intros s Hs Hf. unfold get_status_badge_style; simpl.
    destruct (String.eqb_spec s EmptyString) as [->|_]; [discriminate Hf|].
    by rewrite Hs, Hf.
  - intros s Hne Hs Hf. unfold get_status_badge_style; simpl.
    destruct (String.eqb_spec s EmptyString) as [->|_]; [congruence|].
    by rewrite Hs, Hf.
  - apply get_status_badge_style_in.
  - apply badge_styles_NoDup.
  - intros data current_time uuid_hex Hn.
    rewrite badge_slot. unfold get. by rewrite Hn.
Qed.

Lemma C1_badge_four_styles_witness :
  get_status_badge_style None = style_none /\
  get_status_badge_style (Some "PASSED") = style_success /\
  get_status_badge_style (Some "Failed - error") = style_failure /\
  get_status_badge_style (Some "pending") = style_other /\
  slot_values "status_badge_style"
    (create_certificate_html ∅ "2024-03-15 14:30:00" "0123456789abcdef0123456789abcdef")
  = [style_other].
Proof.
  destruct C1_badge_four_styles as (H1 & H2 & H3 & H4 & _ & _ & H7).
  split; [apply H1; reflexivity|].
  split; [apply H2; reflexivity|].
  split; [apply H3; reflexivity|].
  split; [apply H4; [discriminate | reflexivity | reflexivity]|].
  apply H7. reflexivity.
Defined.

(** C4: the success check comes first: a status whose lower-cased form
    contains both a success token and a failure token gets the success
    style. *)
Theorem C4_success_before_failure (s : string) :
  has_success_token (lower s) = true -> has_failure_token (lower s) = true ->
  get_status_badge_style (Some s) = style_success.
Proof.
  intros Hs _. unfold get_status_badge_style; simpl.
  destruct (String.eqb_spec s EmptyString) as [->|_]; [discriminate Hs|].
  by rewrite Hs.
Qed.

Lemma C4_success_before_failure_witness :
  has_success_token (lower "failed but passed retry") = true /\
  has_failure_token (lower "failed but passed retry") = true /\
  get_status_badge_style (Some "failed but passed retry") = style_success.
Proof.
  split; [reflexivity|]. split; [reflexivity|].
  apply C4_success_before_failure; reflexivity.
Defined.

(* ------------------------------------------------------------------ *)
(** ** The display identifier *)

(** [cert_id = data.get('certificate_id', ...)] *)
Definition resolved_cert_id (data : gmap string string) (uuid_hex : string) : string :=
  match data !! "certificate_id" with
  | Some v => v
  | None => synth_cert_id uuid_hex
  end.

Fixpoint all_chars (p : ascii -> bool) (s : string) : bool :=
  match s with
  | EmptyString => true
  | String c s' => p c && all_chars p s'
  end.

Definition is_lower_hex (c : ascii) : bool :=
  let n := nat_of_ascii c in (((48 <=? n) && (n <=? 57)) || ((97 <=? n) && (n <=? 102)))%nat.
Definition is_upper_hex (c : ascii) : bool :=
  let n := nat_of_ascii c in (((48 <=? n) && (n <=? 57)) || ((65 <=? n) && (n <=? 70)))%nat.

(** The shape of [uuid.UUID.hex]: 32 lower-case hexadecimal digits. *)
Definition uuid_hex_ok (h : string) : bool :=
  (String.length h =? 32)%nat && all_chars is_lower_hex h.

Lemma cert_id_slots (data : gmap string string) (current_time uuid_hex : string) :
  let doc := create_certificate_html data current_time uuid_hex in
  let id := resolved_cert_id data uuid_hex in
  slot_values "title" doc = [id] /\
  slot_values "info_certificate_id" doc = [id] /\
  slot_values "qr_code" doc = [id] /\
  slot_values "footer_document_id" doc = [id] /\
  slot_values "footer_verification" doc = [lower id].
Proof.
  cbn zeta. unfold resolved_cert_id.
  repeat split; reflexivity.
Qed.

Lemma upper_char_hex (c : ascii) : is_lower_hex c = true -> is_upper_hex (upper_char c) = true.
Proof. destruct c as [[] [] [] [] [] [] [] []]; (discriminate || reflexivity). Qed.

Lemma upper_hex (t : string) :
  all_chars is_lower_hex t = true ->
  all_chars is_upper_hex (upper t) = true /\ String.length (upper t) = String.length t.
Proof.
  induction t as [|c t IH]; simpl; [done|].
  intros [Hc Ht]%andb_prop.
  destruct (IH Ht) as [IH1 IH2].
  rewrite upper_char_hex by done. rewrite IH1, IH2. done.
Qed.

Lemma prefix_chars (p : ascii -> bool) (n : nat) (h : string) :
  all_chars p h = true -> all_chars p (String.substring 0 n h) = true.
Proof.
  revert h. induction n as [|n IH]; intros [|c h]; simpl; try done.
  intros [Hc Hh]%andb_prop. rewrite Hc. simpl. auto.
Qed.

Lemma prefix_length (n : nat) (h : string) :
  (n <= String.length h)%nat -> String.length (String.substring 0 n h) = n.
Proof.
  revert h. induction n as [|n IH]; intros [|c h]; simpl; try lia.
  intros Hle. f_equal. apply IH. lia.
Qed.

(** The synthesised identifier is ["CERT-"] followed by eight upper-case
    hexadecimal digits. *)
Lemma synth_cert_id_shape (uuid_hex : string) :
  uuid_hex_ok uuid_hex = true ->
  exists t, synth_cert_id uuid_hex = "CERT-" +:+ t /\
            String.length t = 8%nat /\ all_chars is_upper_hex t = true.
Proof.
  unfold uuid_hex_ok. intros [Hlen Hhex]%andb_prop.
  apply Nat.eqb_eq in Hlen.
  exists (upper (slice_to 8 uuid_hex)). split; [reflexivity|].
  destruct (upper_hex (slice_to 8 uuid_hex)) as [H1 H2].
  { apply prefix_chars, Hhex. }
  split; [|exact H1]. rewrite H2. apply prefix_length. lia.
Qed.

(** C2 (counterexample): a present but empty [certificate_id] is used as
    it is (the empty identifier, not a synthesised one), and the
    verification link carries the lower-cased identifier, not the same
    value as the title. *)
Lemma C2_counterexample :
  slot_values "title"
    (create_certificate_html {[ "certificate_id" := EmptyString ]}
       "2024-03-15 14:30:00" "0123456789abcdef0123456789abcdef") = [EmptyString] /\
  slot_values "title"
    (create_certificate_html ∅ "2024-03-15 14:30:00" "0123456789abcdef0123456789abcdef")
    = ["CERT-01234567"] /\
  slot_values "footer_verification"
    (create_certificate_html ∅ "2024-03-15 14:30:00" "0123456789abcdef0123456789abcdef")
    = ["cert-01234567"].
Proof. split; [reflexivity|]. split; reflexivity. Qed.

(** C2 (amended): the identifier is [attributes["certificate_id"]]
    whenever that key is present (also when empty), and otherwise ["CERT-"]
    followed by eight upper-case hexadecimal digits taken from the UUID; it
    is computed once and appears verbatim in the title, the
    certificate-info field, the QR placeholder and the footer Document ID,
    and lower-cased in the verification link. *)
Theorem C2_identifier_resolution (data : gmap string string) (current_time uuid_hex : string) :
  let doc := create_certificate_html data current_time uuid_hex in
  let id := resolved_cert_id data uuid_hex in
  (forall v, data !! "certificate_id" = Some v -> id = v) /\
  (data !! "certificate_id" = None -> uuid_hex_ok uuid_hex = true ->
   exists t, id = "CERT-" +:+ t /\ String.length t = 8%nat /\ all_chars is_upper_hex t = true) /\
  slot_values "title" doc = [id] /\
  slot_values "info_certificate_id" doc = [id] /\
  slot_values "qr_code" doc = [id] /\
  slot_values "footer_document_id" doc = [id] /\
  slot_values "footer_verification" doc = [lower id].
Proof.
  cbn zeta.
  destruct (cert_id_slots data current_time uuid_hex) as (H1 & H2 & H3 & H4 & H5).
  split; [|split].
  - intros v Hv. unfold resolved_cert_id. by rewrite Hv.
  - intros Hnone Hok. unfold resolved_cert_id. rewrite Hnone.
    by apply synth_cert_id_shape.
  - auto.
Qed.

Lemma C2_identifier_resolution_witness :
  exists t, resolved_cert_id ∅ "0123456789abcdef0123456789abcdef" = "CERT-" +:+ t /\
            String.length t = 8%nat /\ all_chars is_upper_hex t = true.
Proof.
  destruct (C2_identifier_resolution ∅ "2024-03-15 14:30:00"
              "0123456789abcdef0123456789abcdef") as (_ & H & _).
  apply H; reflexivity.
Defined.

(** C9: the verification link embeds the lower-cased identifier, the
    title, certificate-info field, QR placeholder and Document ID embed it
    verbatim. *)
Theorem C9_verification_link_lowercase (data : gmap string string) (current_time uuid_hex : string) :
  let doc := create_certificate_html data current_time uuid_hex in
  let id := resolved_cert_id data uuid_hex in
  slot_values "footer_verification" doc = [lower id] /\
  slot_values "title" doc = [id] /\
  slot_values "info_certificate_id" doc = [id] /\
  slot_values "qr_code" doc = [id] /\
  slot_values "footer_document_id" doc = [id].
Proof.
  cbn zeta.
  destruct (cert_id_slots data current_time uuid_hex) as (H1 & H2 & H3 & H4 & H5).
  auto.
Qed.

(* ------------------------------------------------------------------ *)
(** ** Defaults of the composer *)

Lemma na_field_slot (data : gmap string string) (current_time uuid_hex k : string) :
  k ∈ na_fields ->
  slot_values k (create_certificate_html data current_time uuid_hex) = [get data k "N/A"].
Proof.
  unfold na_fields. intros Hk.
  repeat (apply elem_of_cons in Hk as [->|Hk]; [reflexivity|]).
  apply elem_of_nil in Hk as [].
Qed.

Lemma html_text_nonempty (data : gmap string string) (current_time uuid_hex : string) :
  html_text (create_certificate_html data current_time uuid_hex) <> EmptyString.
Proof. unfold html_text, create_certificate_html. cbn [foldr app piece_text]. discriminate. Qed.

(** The slots filled with a default other than "N/A". *)
Lemma other_default_slots (data : gmap string string) (current_time uuid_hex : string) :
  let doc := create_certificate_html data current_time uuid_hex in
  let issue_date := get data "issue_date" current_time in
  slot_values "signature_technician_name" doc = [get data "technician_name" "John Smith"] /\
  slot_values "signature_supervisor_name" doc = [get data "supervisor_name" "Jane Doe"] /\
  slot_values "final_status" doc = [get data "final_status" "VERIFIED"] /\
  slot_values "info_issue_date" doc = [issue_date] /\
  slot_values "signature_technician_date" doc = [get data "technician_date" (slice_to 10 issue_date)] /\
  slot_values "signature_supervisor_date" doc = [get data "supervisor_date" (slice_to 10 issue_date)].
Proof. cbn zeta. repeat split; reflexivity. Qed.

(** C3 (counterexample): on the empty attribute set, the omitted
    personnel and status fields are rendered with other defaults than
    "N/A": the technician signature reads "John Smith", the supervisor
    signature "Jane Doe" and the status "VERIFIED". *)
Lemma C3_counterexample :
  let doc := create_certificate_html ∅ "2024-03-15 14:30:00" "0123456789abcdef0123456789abcdef" in
  "supervisor_name" ∈ composer_fields /\ "final_status" ∈ composer_fields /\
  slot_values "signature_technician_name" doc = ["John Smith"] /\
  slot_values "signature_supervisor_name" doc = ["Jane Doe"] /\
  slot_values "final_status" doc = ["VERIFIED"].
Proof.
  cbn zeta. unfold composer_fields, na_fields.
  split; [set_solver|]. split; [set_solver|].
  split; [reflexivity|]. split; reflexivity.
Qed.

(** C3 (amended): for every attribute set, including the empty one, the
    composer returns a non-empty document; each omitted field of the 32
    fields read with [data.get(key, 'N/A')] is rendered as "N/A" in its
    slot; an omitted technician name is "John Smith" in the signature
    block (and "N/A" in the info bar), an omitted supervisor name is
    "Jane Doe", an omitted status is "VERIFIED", an omitted issue date is
    the current time, an omitted signature date is [issue_date[:10]], and
    an omitted identifier is synthesised from the UUID. *)
Theorem C3_defaults (data : gmap string string) (current_time uuid_hex : string) :
  let doc := create_certificate_html data current_time uuid_hex in
  html_text doc <> EmptyString /\
  (forall k, k ∈ na_fields -> data !! k = None -> slot_values k doc = ["N/A"]) /\
  (data !! "technician_name" = None ->
   slot_values "signature_technician_name" doc = ["John Smith"]) /\
  (data !! "supervisor_name" = None ->
   slot_values "signature_supervisor_name" doc = ["Jane Doe"]) /\
  (data !! "final_status" = None -> slot_values "final_status" doc = ["VERIFIED"]) /\
  (data !! "issue_date" = None -> slot_values "info_issue_date" doc = [current_time]) /\
  (data !! "technician_date" = None ->
   slot_values "signature_technician_date" doc
   = [slice_to 10 (get data "issue_date" current_time)]) /\
  (data !! "supervisor_date" = None ->
   slot_values "signature_supervisor_date" doc
   = [slice_to 10 (get data "issue_date" current_time)]) /\
  (data !! "certificate_id" = None ->
   slot_values "title" doc = [synth_cert_id uuid_hex] /\
   slot_values "info_certificate_id" doc = [synth_cert_id uuid_hex]).
Proof.
  cbn zeta. split; [apply html_text_nonempty|].
  destruct (other_default_slots data current_time uuid_hex) as (H1 & H2 & H3 & H4 & H5 & H6).
  destruct (cert_id_slots data current_time uuid_hex) as (I1 & I2 & _).
  split; [|split; [|split; [|split; [|split; [|split; [|split]]]]]].
  - intros k Hk Hnone. rewrite na_field_slot by done. unfold get. by rewrite Hnone.
  - intros H. rewrite H1. unfold get. by rewrite H.
  - intros H. rewrite H2. unfold get. by rewrite H.
  - intros H. rewrite H3. unfold get. by rewrite H.
  - intros H. rewrite H4. unfold get. by rewrite H.
  - intros H. rewrite H5. unfold get at 1. by rewrite H.
  - intros H. rewrite H6. unfold get at 1. by rewrite H.
  - intros H. rewrite I1, I2. unfold resolved_cert_id. by rewrite H.
Qed.

Lemma C3_defaults_witness :
  slot_values "device_type"
    (create_certificate_html ∅ "2024-03-15 14:30:00" "0123456789abcdef0123456789abcdef")
  = ["N/A"].
Proof.
  destruct (C3_defaults ∅ "2024-03-15 14:30:00" "0123456789abcdef0123456789abcdef")
    as (_ & H & _).
  apply H; [apply list_elem_of_In; unfold na_fields; simpl; tauto | reflexivity].
Defined.


Lemma slice_to_prefix (n : nat) (s : string) : is_prefix (slice_to n s) s = true.
Proof.
  unfold slice_to. revert s. induction n as [|n IH]; intros [|c s]; simpl; try done.
  rewrite Ascii.eqb_refl. apply IH.
Qed.

Lemma slice_to_length (n : nat) (s : string) :
  String.length (slice_to n s) = Nat.min n (String.length s).
Proof.
  unfold slice_to. revert s. induction n as [|n IH]; intros [|c s]; simpl; try done.
  by rewrite IH.
Qed.

Lemma slice_to_short (n : nat) (s : string) :
  (String.length s <= n)%nat -> slice_to n s = s.
Proof.
  unfold slice_to. revert s. induction n as [|n IH]; intros [|c s]; simpl; try done.
  - lia.
  - intros H. f_equal. apply IH. lia.
Qed.

(** C10: an omitted technician or supervisor date is the first ten
    characters of the resolved issue date (the whole string when shorter). *)
Theorem C10_signature_dates (data : gmap string string) (current_time uuid_hex : string) :
  let doc := create_certificate_html data current_time uuid_hex in
  let issue_date := get data "issue_date" current_time in
  (data !! "technician_date" = None ->
   slot_values "signature_technician_date" doc = [slice_to 10 issue_date]) /\
  (data !! "supervisor_date" = None ->
   slot_values "signature_supervisor_date" doc = [slice_to 10 issue_date]) /\
  is_prefix (slice_to 10 issue_date) issue_date = true /\
  String.length (slice_to 10 issue_date) = Nat.min 10 (String.length issue_date) /\
  ((String.length issue_date <= 10)%nat -> slice_to 10 issue_date = issue_date).
Proof.
  cbn zeta.
  destruct (other_default_slots data current_time uuid_hex) as (_ & _ & _ & _ & H5 & H6).
  split; [|split; [|split; [|split]]].
  - intros H. rewrite H5. unfold get at 1. by rewrite H.
  - intros H. rewrite H6. unfold get at 1. by rewrite H.
  - apply slice_to_prefix.
  - apply slice_to_length.
  - apply slice_to_short.
Qed.

Lemma C10_signature_dates_witness :
  slot_values "signature_technician_date"
    (create_certificate_html ∅ "2024-03-15 14:30:00" "0123456789abcdef0123456789abcdef")
  = ["2024-03-15"] /\
  slot_values "signature_supervisor_date"
    (create_certificate_html {[ "issue_date" := "2024" ]} "2024-03-15 14:30:00"
       "0123456789abcdef0123456789abcdef")
  = ["2024"].
Proof.
  split.
  - destruct (C10_signature_dates ∅ "2024-03-15 14:30:00" "0123456789abcdef0123456789abcdef")
      as (H & _). apply H. reflexivity.
  - destruct (C10_signature_dates {[ "issue_date" := "2024" ]} "2024-03-15 14:30:00"
                "0123456789abcdef0123456789abcdef") as (_ & H & _).
    apply H. reflexivity.
Defined.

(* ------------------------------------------------------------------ *)
(** ** The render pipeline *)

(** Once the HTML is written, the outcome of [create_certificate] and the
    file system it leaves are decided by the renderer and the unlink. *)
Lemma create_certificate_written (g : generator) (o : oracle) (data : gmap string string)
    (current_time uuid_hex : string) (w : world) :
  write_result o = None ->
  let run := create_certificate g o data current_time uuid_hex w in
  fst run = match unlink_result o with Some e => inl e | None => render_result o end /\
  fs (snd run) = match unlink_result o with
                 | Some _ => {[tmp_path o]} ∪ fs w
                 | None => ({[tmp_path o]} ∪ fs w) ∖ {[tmp_path o]}
                 end.
Proof.
  intros Hw. cbn zeta.
  unfold create_certificate, try_except, try_finally, mbind, M_bind, mret, M_ret,
    log_msg, named_temporary_file, file_write, pdfkit_from_file, path_exists, os_unlink, raise.
  rewrite Hw.
  destruct (pdfkit_config g), (render_result o), (unlink_result o); simpl;
    case_bool_decide; simpl; solve [done | set_solver].
Qed.

(** The lines [create_certificate] logs up to the call of wkhtmltopdf. *)
Definition opening_log (g : generator) : list string :=
  ["Starting certificate generation..."; "HTML content generated";
   "Temporary HTML file created"; "Starting PDF generation with wkhtmltopdf...";
   if pdfkit_config g then "Using configured wkhtmltopdf path"
   else "Using system PATH for wkhtmltopdf"].

(** The lines of the generic [except] handler of [create_certificate]. *)
Definition error_log (e : exn) : list string :=
  ["Error creating certificate: " +:+ exn_str e; "Full traceback"].

(** Once the HTML is written, the log of [create_certificate]: the opening
    lines, the success line of the renderer, the cleanup line, and the
    lines of the generic handler when the call fails. *)
Lemma create_certificate_written_log (g : generator) (o : oracle) (data : gmap string string)
    (current_time uuid_hex : string) (w : world) :
  write_result o = None ->
  let run := create_certificate g o data current_time uuid_hex w in
  log (snd run) =
    (log w ++ opening_log g
     ++ (match render_result o with inr _ => ["PDF generated successfully"] | inl _ => [] end)
     ++ (match unlink_result o with None => ["Temporary HTML file cleaned up"] | Some _ => [] end)
     ++ (match fst run with inl e => error_log e | inr _ => [] end))%list.
Proof.
  intros Hw. cbn zeta.
  unfold create_certificate, try_except, try_finally, mbind, M_bind, mret, M_ret,
    log_msg, named_temporary_file, file_write, pdfkit_from_file, path_exists, os_unlink, raise,
    opening_log, error_log.
  rewrite Hw.
  destruct (pdfkit_config g), (render_result o), (unlink_result o); simpl;
    (case_bool_decide as Hin; [|exfalso; apply Hin; set_solver]);
    simpl; rewrite <- ?app_assoc; reflexivity.
Qed.

Definition empty_world : world := {| fs := ∅; log := [] |}.
Definition sample_uuid : string := "0123456789abcdef0123456789abcdef".
Definition sample_clock : clock :=
  {| now_text := "2024-03-15 14:30:00"; now_iso := "2024-03-15T14:30:00";
     now_stamp := "20240315_143000" |}.
Definition no_config : generator := {| pdfkit_config := false |}.

(** The temporary file is written, wkhtmltopdf succeeds, and [os.unlink]
    fails (on Windows a file still held open by another process). *)
Definition oracle_unlink_fails : oracle :=
  {| tmp_path := "/tmp/tmpab12cd.html"; write_result := None;
     render_result := inr "%PDF-1.4";
     unlink_result := Some (OSError "[WinError 32] The process cannot access the file") |}.

(** C5 (counterexample): the renderer succeeds but the cleanup raises:
    the cleanup error replaces the rendered PDF as the outcome of
    [create_certificate], and the temporary file still exists. *)
Lemma C5_counterexample :
  let run := create_certificate no_config oracle_unlink_fails ∅
               (now_text sample_clock) sample_uuid empty_world in
  fst run = inl (OSError "[WinError 32] The process cannot access the file") /\
  fst run <> inr "%PDF-1.4" /\
  "/tmp/tmpab12cd.html" ∈ fs (snd run).
Proof.
  cbn zeta.
  destruct (create_certificate_written no_config oracle_unlink_fails ∅
              (now_text sample_clock) sample_uuid empty_world eq_refl) as [H1 H2].
  rewrite H1, H2. simpl. split; [done|]. split; [discriminate|]. set_solver.
Qed.

(** C5 (amended): once the composed HTML has been written to the
    temporary file, the [finally] cleanup runs whether wkhtmltopdf succeeds
    or fails.  When [os.unlink] succeeds the temporary file no longer
    exists (the rest of the file system is unchanged) and the renderer's PDF
    or error is the outcome, unchanged.  A failure of the cleanup is not
    handled on its own: its exception becomes the outcome, replacing the
    renderer's result or error, the temporary file remains, and the only
    lines logged after the renderer's are those of the generic [except]
    handler (no cleanup line). *)
Theorem C5_cleanup_after_render (g : generator) (o : oracle) (data : gmap string string)
    (current_time uuid_hex : string) (w : world) :
  write_result o = None ->
  let run := create_certificate g o data current_time uuid_hex w in
  (unlink_result o = None ->
   (tmp_path o ∉ fs (snd run)) /\ fs (snd run) = (fs w ∖ {[tmp_path o]}) /\
   fst run = render_result o) /\
  (forall e, unlink_result o = Some e ->
   fst run = inl e /\ tmp_path o ∈ fs (snd run) /\
   log (snd run) =
     (log w ++ opening_log g
      ++ (match render_result o with inr _ => ["PDF generated successfully"] | inl _ => [] end)
      ++ error_log e)%list).
Proof.
  intros Hw. cbn zeta.
  destruct (create_certificate_written g o data current_time uuid_hex w Hw) as [H1 H2].
  pose proof (create_certificate_written_log g o data current_time uuid_hex w Hw) as H3.
  cbn zeta in H3.
  split.
  - intros Hu. rewrite Hu in H1, H2. rewrite H1, H2.
    split; [set_solver|]. split; [set_solver|done].
  - intros e Hu. rewrite Hu in H1, H2, H3. rewrite H1 in H3. rewrite H1, H2, H3.
    split; [done|]. split; [set_solver|]. by rewrite app_nil_l.
Qed.

Definition oracle_render_fails_clean : oracle :=
  {| tmp_path := "/tmp/tmpab12cd.html"; write_result := None;
     render_result := inl (IOError "wkhtmltopdf exited with non-zero code 1. error: Exit with code 1 due to network error: HostNotFoundError");
     unlink_result := None |}.

Lemma C5_cleanup_after_render_witness :
  "/tmp/tmpab12cd.html"
    ∉ fs (snd (create_certificate no_config oracle_render_fails_clean ∅
                 (now_text sample_clock) sample_uuid empty_world)).
Proof.
  destruct (C5_cleanup_after_render no_config oracle_render_fails_clean ∅
              (now_text sample_clock) sample_uuid empty_world eq_refl) as [H _].
  apply H. reflexivity.
Defined.

(* ------------------------------------------------------------------ *)
(** ** The routes *)

Definition failure_response (e : exn) : response :=
  JsonResp 500 [("success", JBool false);
                ("error", JStr ("Failed to generate certificate: " +:+ exn_str e))].

Lemma py_falsy_map_nonempty (data : gmap string string) :
  data ≠ ∅ -> py_falsy_map (Some data) = false.
Proof. intros H. simpl. by apply bool_decide_eq_false_2. Qed.

(** [generate_certificate] on a non-empty body answers from the outcome
    of [create_certificate]. *)
Lemma generate_certificate_run (g : generator) (o : oracle) (b64encode : string -> string)
    (clk : clock) (uuid_hex : string) (data : gmap string string) (w : world) :
  data ≠ ∅ ->
  let w1 := {| fs := fs w; log := log w ++ ["Generating certificate"] |} in
  fst (generate_certificate g o b64encode clk uuid_hex (Some data) w) =
  inr (match fst (create_certificate g o data (now_text clk) uuid_hex w1) with
       | inl e => failure_response e
       | inr pdf_buffer =>
           JsonResp 200
             [("success", JBool true);
              ("message", JStr "Professional certificate generated successfully");
              ("pdf_base64", JStr (b64encode pdf_buffer));
              ("filename", JStr ("certificate_" +:+ get data "certificate_id" "unknown" +:+ ".pdf"));
              ("generated_at", JStr (now_iso clk))]
       end).
Proof.
  intros Hne. cbn zeta.
  unfold generate_certificate. rewrite py_falsy_map_nonempty by done.
  unfold try_except, mbind, M_bind, mret, M_ret, log_msg.
  destruct (create_certificate g o data (now_text clk) uuid_hex _) as [[e|pdf] w2]; done.
Qed.

(** The same for [generate_certificate_file]. *)
Lemma generate_certificate_file_run (g : generator) (o : oracle) (clk : clock)
    (uuid_hex : string) (data : gmap string string) (w : world) :
  data ≠ ∅ ->
  let w1 := {| fs := fs w; log := log w ++ ["Generating certificate file"] |} in
  fst (generate_certificate_file g o clk uuid_hex (Some data) w) =
  inr (match fst (create_certificate g o data (now_text clk) uuid_hex w1) with
       | inl e => failure_response e
       | inr pdf_buffer =>
           let filename := "certificate_" +:+ get data "certificate_id" "unknown" +:+ "_"
                           +:+ now_stamp clk +:+ ".pdf" in
           if has_crlf filename
           then failure_response (ValueError "Header values must not contain newline characters.")
           else FileResp pdf_buffer filename "application/pdf"
       end).
Proof.
  intros Hne. cbn zeta.
  unfold generate_certificate_file. rewrite py_falsy_map_nonempty by done.
  unfold try_except, mbind, M_bind, mret, M_ret, log_msg, send_file, raise.
  destruct (create_certificate g o data (now_text clk) uuid_hex _) as [[e|pdf] w2]; [done|].
  destruct (has_crlf _); done.
Qed.




(** A payload encoding for the concrete runs below; no claim inspects the
    encoded bytes. *)
Definition sample_b64encode (pdf : string) : string := pdf.

Definition oracle_ok : oracle :=
  {| tmp_path := "/tmp/tmpab12cd.html"; write_result := None;
     render_result := inr "%PDF-1.4"; unlink_result := None |}.

(** C6 (counterexample): without [certificate_id] the document carries the
    synthesised identifier ["CERT-01234567"] but the filename is
    ["certificate_unknown.pdf"]. *)
Lemma C6_counterexample :
  let data : gmap string string := {[ "final_status" := "PASSED"; "device_type" := "SSD" ]} in
  resolved_cert_id data sample_uuid = "CERT-01234567" /\
  fst (generate_certificate no_config oracle_ok sample_b64encode sample_clock sample_uuid
         (Some data) empty_world)
  = inr (JsonResp 200
           [("success", JBool true);
            ("message", JStr "Professional certificate generated successfully");
            ("pdf_base64", JStr "%PDF-1.4");
            ("filename", JStr "certificate_unknown.pdf");
            ("generated_at", JStr "2024-03-15T14:30:00")]).
Proof. cbn zeta. split; vm_compute; reflexivity. Qed.

(** C6 (amended): when the body is non-empty and rendering succeeds (the
    temporary file written and removed), [generate_certificate] answers
    success with the filename ["certificate_" ++ data.get('certificate_id',
    'unknown') ++ ".pdf"]; this is derived from the document's identifier
    when [certificate_id] is supplied, and is ["certificate_unknown.pdf"]
    when it is absent, whatever identifier the document synthesised. *)
Theorem C6_generate_filename (g : generator) (o : oracle) (b64encode : string -> string)
    (clk : clock) (uuid_hex : string) (data : gmap string string) (w : world) (pdf : string) :
  data ≠ ∅ -> write_result o = None -> unlink_result o = None -> render_result o = inr pdf ->
  let filename := "certificate_" +:+ get data "certificate_id" "unknown" +:+ ".pdf" in
  fst (generate_certificate g o b64encode clk uuid_hex (Some data) w) =
  inr (JsonResp 200
         [("success", JBool true);
          ("message", JStr "Professional certificate generated successfully");
          ("pdf_base64", JStr (b64encode pdf));
          ("filename", JStr filename);
          ("generated_at", JStr (now_iso clk))]) /\
  (forall v, data !! "certificate_id" = Some v ->
   filename = "certificate_" +:+ resolved_cert_id data uuid_hex +:+ ".pdf") /\
  (data !! "certificate_id" = None -> filename = "certificate_unknown.pdf").
Proof.
  intros Hne Hw Hu Hr. cbn zeta.
  rewrite generate_certificate_run by done.
  destruct (create_certificate_written g o data (now_text clk) uuid_hex
              {| fs := fs w; log := log w ++ ["Generating certificate"] |} Hw) as [H1 _].
  rewrite H1, Hu, Hr.
  split; [done|]. split.
  - intros v Hv. unfold get, resolved_cert_id. by rewrite Hv.
  - intros Hn. unfold get. by rewrite Hn.
Qed.

Lemma C6_generate_filename_witness :
  let data : gmap string string :=
    {[ "certificate_id" := "CERT-TEST-1"; "final_status" := "PASSED"; "device_type" := "SSD" ]} in
  fst (generate_certificate no_config oracle_ok sample_b64encode sample_clock sample_uuid
         (Some data) empty_world)
  = inr (JsonResp 200
           [("success", JBool true);
            ("message", JStr "Professional certificate generated successfully");
            ("pdf_base64", JStr "%PDF-1.4");
            ("filename", JStr "certificate_CERT-TEST-1.pdf");
            ("generated_at", JStr "2024-03-15T14:30:00")]).
Proof.
  cbn zeta.
  destruct (C6_generate_filename no_config oracle_ok sample_b64encode sample_clock sample_uuid
              {[ "certificate_id" := "CERT-TEST-1"; "final_status" := "PASSED";
                 "device_type" := "SSD" ]} empty_world "%PDF-1.4")
    as [H _]; [intros Hc; apply (f_equal (lookup "device_type")) in Hc; discriminate Hc
              | reflexivity | reflexivity | reflexivity | ].
  exact H.
Defined.

(** C7 (counterexample): [test_endpoint] without a body answers a normal
    200 response with [received_params = 0], not an error response. *)
Lemma C7_counterexample :
  test_endpoint sample_clock None =
    JsonResp 200 [("message", JStr "Professional Certificate API is working");
                  ("received_params", JNat 0);
                  ("timestamp", JStr "2024-03-15T14:30:00")] /\
  ~ is_error_response (test_endpoint sample_clock None).
Proof.
  split; [reflexivity|].
  simpl. intros [Hc _]. lia.
Qed.

(** C7 (amended): [generate_certificate], [generate_certificate_file]
    and [preview_certificate] answer the structured 400 error
    [{"error": "No data provided"}], touching neither the file system nor
    the log, when the body is absent or an empty object; [test_endpoint]
    answers a normal 200 response with [received_params = 0]. *)
Theorem C7_missing_body (g : generator) (o : oracle) (b64encode : string -> string)
    (clk : clock) (uuid_hex : string) (w : world) :
  is_error_response no_data_response /\
  generate_certificate g o b64encode clk uuid_hex None w = (inr no_data_response, w) /\
  generate_certificate g o b64encode clk uuid_hex (Some ∅) w = (inr no_data_response, w) /\
  generate_certificate_file g o clk uuid_hex None w = (inr no_data_response, w) /\
  generate_certificate_file g o clk uuid_hex (Some ∅) w = (inr no_data_response, w) /\
  preview_certificate clk uuid_hex None = no_data_response /\
  preview_certificate clk uuid_hex (Some ∅) = no_data_response /\
  test_endpoint clk None =
    JsonResp 200 [("message", JStr "Professional Certificate API is working");
                  ("received_params", JNat 0);
                  ("timestamp", JStr (now_iso clk))].
Proof.
  split.
  { simpl. split; [lia|]. eexists. left. }
  repeat split.
Qed.





(* ================================================================== *)
(** * Further properties of the code *)

(* ------------------------------------------------------------------ *)
(** ** Locating wkhtmltopdf *)

Lemma first_existing_spec (exists_ : string -> bool) (paths : list string) (p : string) :
  first_existing exists_ paths = Some p <->
  exists pre post, paths = (pre ++ p :: post)%list /\ exists_ p = true /\
                   Forall (fun q => exists_ q = false) pre.
Proof.
  induction paths as [|q ps IH]; simpl.
  - split; [discriminate|]. intros (pre & post & Hp & _).
    destruct pre; discriminate Hp.
  - destruct (exists_ q) eqn:Hq.
    + split.
      * intros [= <-]. exists [], ps. auto.
      * intros ([|r pre] & post & Hp & Hex & Hpre); simpl in Hp.
        { by injection Hp as -> _. }
        injection Hp as -> _. inversion Hpre; congruence.
    + rewrite IH. split.
      * intros (pre & post & -> & Hex & Hpre). exists (q :: pre), post. auto.
      * intros ([|r pre] & post & Hp & Hex & Hpre); simpl in Hp.
        { injection Hp as -> _. congruence. }
        injection Hp as -> ->. inversion Hpre; subst. eauto.
Qed.

(** The first existing path, with everything before it missing. *)
Definition first_existing_is (exists_ : string -> bool) (paths : list string) (p : string) : Prop :=
  exists pre post, paths = (pre ++ p :: post)%list /\ exists_ p = true /\
                   Forall (fun q => exists_ q = false) pre.

(** X1: on Windows, [setup_wkhtmltopdf_config] configures the binary path
    [p] exactly when [p] is the first of the four known installation paths
    that exists and [open] succeeds on it; when [open] fails on that first
    existing path, [pdfkit.configuration] raises and the setup aborts with
    that error instead of falling back; elsewhere nothing is configured. *)
Theorem X1_setup_first_existing_path (system : string) (username : option string)
    (exists_ can_open : string -> bool) (p : string) :
  ((exists l, setup_wkhtmltopdf_config system username exists_ can_open = inr (Some p, l)) <->
   system = "Windows" /\ first_existing_is exists_ (windows_paths username) p /\
   can_open p = true) /\
  ((exists e, setup_wkhtmltopdf_config system username exists_ can_open = inl e) <->
   system = "Windows" /\
   exists q, first_existing_is exists_ (windows_paths username) q /\ can_open q = false).
Proof.
  unfold setup_wkhtmltopdf_config, first_existing_is.
  setoid_rewrite <- first_existing_spec.
  destruct (String.eqb_spec system "Windows") as [->|Hne].
  - destruct (first_existing exists_ (windows_paths username)) as [q|].
    + unfold pdfkit_configuration. destruct (can_open q) eqn:Hq.
      * split; split.
        -- intros [l [= ->]]. auto.
        -- intros (_ & [= ->] & _). eauto.
        -- intros [e He]. discriminate He.
        -- intros (_ & y & [= <-] & Hy). congruence.
      * split; split.
        -- intros [l Hl]. discriminate Hl.
        -- intros (_ & [= ->] & Hp). congruence.
        -- intros _. split; [done|]. eauto.
        -- intros _. eauto.
    + split; split.
      * intros [l Hl]. discriminate Hl.
      * intros (_ & Hs & _). discriminate Hs.
      * intros [e He]. discriminate He.
      * intros (_ & y & Hs & _). discriminate Hs.
  - split; split.
    + intros [l Hl]. discriminate Hl.
    + intros [? _]. contradiction.
    + intros [e He]. discriminate He.
    + intros [? _]. contradiction.
Qed.

Lemma X1_setup_first_existing_path_witness :
  exists e, setup_wkhtmltopdf_config "Windows" (Some "alice")
              (fun q => String.eqb q "C:\wkhtmltopdf\bin\wkhtmltopdf.exe") (fun _ => false) = inl e.
Proof.
  apply (proj2 (X1_setup_first_existing_path "Windows" (Some "alice")
           (fun q => String.eqb q "C:\wkhtmltopdf\bin\wkhtmltopdf.exe") (fun _ => false)
           "C:\wkhtmltopdf\bin\wkhtmltopdf.exe")).
  split; [reflexivity|]. exists "C:\wkhtmltopdf\bin\wkhtmltopdf.exe".
  split; [|reflexivity].
  apply first_existing_spec. reflexivity.
Defined.

(* ------------------------------------------------------------------ *)
(** ** The pipeline: what it leaves behind *)

(** When [temp_html.write] raises, the file created by
    [NamedTemporaryFile(delete=False)] stays and wkhtmltopdf is not run. *)
Lemma create_certificate_write_fails (g : generator) (o : oracle) (data : gmap string string)
    (current_time uuid_hex : string) (w : world) (e : exn) :
  write_result o = Some e ->
  let run := create_certificate g o data current_time uuid_hex w in
  fst run = inl e /\ fs (snd run) = {[tmp_path o]} ∪ fs w.
Proof.
  intros Hw. cbn zeta.
  unfold create_certificate, try_except, try_finally, mbind, M_bind, mret, M_ret,
    log_msg, named_temporary_file, file_write, raise.
  rewrite Hw. simpl. done.
Qed.

Lemma create_certificate_write_fails_log (g : generator) (o : oracle)
    (data : gmap string string) (current_time uuid_hex : string) (w : world) (e : exn) :
  write_result o = Some e ->
  log (snd (create_certificate g o data current_time uuid_hex w)) =
    (log w ++ ["Starting certificate generation..."; "HTML content generated"] ++ error_log e)%list.
Proof.
  intros Hw.
  unfold create_certificate, try_except, try_finally, mbind, M_bind, mret, M_ret,
    log_msg, named_temporary_file, file_write, raise, error_log.
  rewrite Hw. simpl. by rewrite <- !app_assoc.
Qed.

(** X2: whatever step of [create_certificate] raises (the write, the
    renderer or the cleanup), the generic handler logs the error message
    and the traceback line last before re-raising; and a call that returns
    a PDF is one where the write, the renderer and the cleanup all
    succeeded, the PDF is the renderer's, and the log ends with the success
    line followed by the cleanup line. *)
Theorem X2_create_certificate_outcome_log (g : generator) (o : oracle)
    (data : gmap string string) (current_time uuid_hex : string) (w : world) :
  let run := create_certificate g o data current_time uuid_hex w in
  (forall e, fst run = inl e -> error_log e `suffix_of` log (snd run)) /\
  (forall pdf, fst run = inr pdf ->
   write_result o = None /\ render_result o = inr pdf /\ unlink_result o = None /\
   (["PDF generated successfully"; "Temporary HTML file cleaned up"] `suffix_of` log (snd run))).
Proof.
  cbn zeta.
  destruct (write_result o) as [e'|] eqn:Hw.
  - destruct (create_certificate_write_fails g o data current_time uuid_hex w e' Hw) as [H1 _].
    rewrite H1. split; [|intros pdf Hp; discriminate Hp].
    intros e [= <-]. rewrite (create_certificate_write_fails_log g o data current_time uuid_hex w e' Hw).
    rewrite !app_assoc. eexists. reflexivity.
  - destruct (create_certificate_written g o data current_time uuid_hex w Hw) as [H1 _].
    pose proof (create_certificate_written_log g o data current_time uuid_hex w Hw) as H3.
    cbn zeta in H3. rewrite H3.
    split.
    + intros e He. rewrite He, !app_assoc. eexists. reflexivity.
    + intros pdf Hp. rewrite Hp. rewrite H1 in Hp.
      destruct (unlink_result o); [discriminate Hp|].
      destruct (render_result o) as [e|pdf']; [discriminate Hp|]. injection Hp as ->.
      split; [done|]. split; [done|]. split; [done|].
      rewrite app_nil_r. eexists (log w ++ opening_log g)%list.
      by rewrite <- app_assoc.
Qed.

Lemma X2_create_certificate_outcome_log_witness :
  error_log (OSError "[WinError 32] The process cannot access the file")
    `suffix_of` log (snd (create_certificate no_config oracle_unlink_fails ∅
                            (now_text sample_clock) sample_uuid empty_world)).
Proof.
  destruct (X2_create_certificate_outcome_log no_config oracle_unlink_fails ∅
              (now_text sample_clock) sample_uuid empty_world) as [H _].
  apply H. reflexivity.
Defined.

(** X3: [create_certificate] changes the file system at the temporary
    path only: every other file exists afterwards exactly when it existed
    before, whether the write, the renderer or the cleanup fail or not. *)
Theorem X3_only_temp_path_touched (g : generator) (o : oracle) (data : gmap string string)
    (current_time uuid_hex : string) (w : world) (q : string) :
  q <> tmp_path o ->
  (q ∈ fs (snd (create_certificate g o data current_time uuid_hex w)) <-> q ∈ fs w).
Proof.
  intros Hq.
  destruct (write_result o) as [e|] eqn:Hw.
  - destruct (create_certificate_write_fails g o data current_time uuid_hex w e Hw) as [_ H].
    rewrite H. set_solver.
  - destruct (create_certificate_written g o data current_time uuid_hex w Hw) as [_ H].
    rewrite H. destruct (unlink_result o); set_solver.
Qed.

Lemma X3_only_temp_path_touched_witness :
  "C:\data\report.txt"
    ∈ fs (snd (create_certificate no_config oracle_unlink_fails ∅ (now_text sample_clock)
                 sample_uuid {| fs := {["C:\data\report.txt"]}; log := [] |})).
Proof.
  apply (X3_only_temp_path_touched no_config oracle_unlink_fails ∅ (now_text sample_clock)
           sample_uuid {| fs := {["C:\data\report.txt"]}; log := [] |}).
  - discriminate.
  - simpl. set_solver.
Defined.

Definition oracle_write_fails : oracle :=
  {| tmp_path := "/tmp/tmpab12cd.html";
     write_result := Some (UnicodeEncodeError "'utf-8' codec can't encode character '\ud800'");
     render_result := inr "%PDF-1.4"; unlink_result := None |}.

(** X4: if writing the HTML to the temporary file raises, the renderer is
    not run, the write error is re-raised by [create_certificate], the
    routes answer the 500 failure with its message, and the temporary file
    is left on disk. *)
Theorem X4_write_failure_leaves_file (g : generator) (o : oracle) (b64encode : string -> string)
    (clk : clock) (uuid_hex : string) (data : gmap string string) (w : world) (e : exn) :
  data ≠ ∅ -> write_result o = Some e ->
  fst (create_certificate g o data (now_text clk) uuid_hex w) = inl e /\
  tmp_path o ∈ fs (snd (create_certificate g o data (now_text clk) uuid_hex w)) /\
  fst (generate_certificate g o b64encode clk uuid_hex (Some data) w) = inr (failure_response e).
Proof.
  intros Hne Hw.
  destruct (create_certificate_write_fails g o data (now_text clk) uuid_hex w e Hw) as [H1 H2].
  split; [done|]. split; [rewrite H2; set_solver|].
  rewrite generate_certificate_run by done.
  destruct (create_certificate_write_fails g o data (now_text clk) uuid_hex
              {| fs := fs w; log := log w ++ ["Generating certificate"] |} e Hw) as [H3 _].
  by rewrite H3.
Qed.

Lemma X4_write_failure_leaves_file_witness :
  "/tmp/tmpab12cd.html"
    ∈ fs (snd (create_certificate no_config oracle_write_fails {[ "notes" := "x" ]}
                 (now_text sample_clock) sample_uuid empty_world)).
Proof.
  destruct (X4_write_failure_leaves_file no_config oracle_write_fails sample_b64encode sample_clock
              sample_uuid {[ "notes" := "x" ]} empty_world
              (UnicodeEncodeError "'utf-8' codec can't encode character '\ud800'"))
    as (_ & H & _);
    [intros Hc; apply (f_equal (lookup "notes")) in Hc; discriminate Hc | reflexivity | exact H].
Defined.

(** [try ... except Exception] with a handler that does not raise. *)
Lemma try_except_no_raise {A} (body : M A) (h : exn -> M A) (w : world) :
  (forall e w', exists r, fst (h e w') = inr r) ->
  exists r, fst (try_except body h w) = inr r.
Proof.
  intros Hh. unfold try_except.
  destruct (body w) as [[e|x] w1]; [apply Hh | eauto].
Qed.

(** X5: the two generating routes never let an exception escape: for any
    body and any behaviour of the file system and the renderer they answer
    a response. *)
Theorem X5_routes_never_raise (g : generator) (o : oracle) (b64encode : string -> string)
    (clk : clock) (uuid_hex : string) (json : option (gmap string string)) (w : world) :
  (exists r, fst (generate_certificate g o b64encode clk uuid_hex json w) = inr r) /\
  (exists r, fst (generate_certificate_file g o clk uuid_hex json w) = inr r).
Proof.
  split; apply try_except_no_raise; intros e w'; eexists; reflexivity.
Qed.

(* ------------------------------------------------------------------ *)
(** ** The composed document and the preview *)

Lemma is_prefix_append (p s t : string) :
  is_prefix p s = true -> is_prefix p (s +:+ t) = true.
Proof.
  revert s. induction p as [|a p IH]; intros [|b s]; simpl; try done.
  intros [Hab Hp]%andb_prop. rewrite Hab. simpl. auto.
Qed.

Lemma contains_append_l (n s t : string) :
  contains n s = true -> contains n (s +:+ t) = true.
Proof.
  induction s as [|c s IH]; simpl.
  - destruct n; [by destruct t | discriminate].
  - intros [Hp|Hc]%orb_prop.
    + apply orb_true_intro. left. by apply (is_prefix_append n (String c s) t).
    + rewrite IH by done. apply orb_true_r.
Qed.

Lemma contains_append_r (n s t : string) :
  contains n t = true -> contains n (s +:+ t) = true.
Proof.
  induction s as [|c s IH]; simpl; [done|].
  intros Ht. rewrite IH by done. apply orb_true_r.
Qed.

Lemma contains_refl (s : string) : contains s s = true.
Proof.
  assert (Hp : forall t, is_prefix t t = true).
  { induction t; simpl; [done|]. by rewrite Ascii.eqb_refl. }
  destruct s; simpl; [done|]. rewrite Ascii.eqb_refl, Hp. done.
Qed.

(** Every value interpolated into a slot occurs in the HTML text. *)
Lemma slot_value_in_html (slot v : string) (doc : list piece) :
  v ∈ slot_values slot doc -> contains v (html_text doc) = true.
Proof.
  induction doc as [|p doc IH]; simpl; [intros Hv; apply elem_of_nil in Hv as []|].
  unfold html_text in *. simpl.
  destruct p as [t|s v']; simpl.
  - intros Hv. apply contains_append_r. auto.
  - destruct (String.eqb s slot); simpl.
    + intros [->|Hv]%elem_of_cons.
      * apply contains_append_l, contains_refl.
      * apply contains_append_r. auto.
    + intros Hv. apply contains_append_r. auto.
Qed.

(** X6: on a non-empty body, [preview_certificate] answers 200 with the
    composed HTML, which contains the resolved identifier, the status text
    and every supplied value of the 32 fields shown with an "N/A" default. *)
Theorem X6_preview_shows_values (clk : clock) (uuid_hex : string) (data : gmap string string) :
  data ≠ ∅ ->
  let html := html_text (create_certificate_html data (now_text clk) uuid_hex) in
  preview_certificate clk uuid_hex (Some data) =
    JsonResp 200 [("success", JBool true); ("html_content", JStr html);
                  ("message", JStr "Professional certificate preview generated")] /\
  contains (resolved_cert_id data uuid_hex) html = true /\
  contains (get data "final_status" "VERIFIED") html = true /\
  (forall k v, k ∈ na_fields -> data !! k = Some v -> contains v html = true).
Proof.
  intros Hne. cbn zeta.
  split; [unfold preview_certificate; by rewrite py_falsy_map_nonempty|].
  destruct (cert_id_slots data (now_text clk) uuid_hex) as (H1 & _).
  destruct (other_default_slots data (now_text clk) uuid_hex) as (_ & _ & H3 & _).
  split; [|split].
  - apply (slot_value_in_html "title"). rewrite H1. set_solver.
  - apply (slot_value_in_html "final_status"). rewrite H3. set_solver.
  - intros k v Hk Hv. apply (slot_value_in_html k).
    rewrite na_field_slot by done. unfold get. rewrite Hv. set_solver.
Qed.

Lemma X6_preview_shows_values_witness :
  contains "CERT-TEST-1"
    (html_text (create_certificate_html
                  {[ "certificate_id" := "CERT-TEST-1"; "final_status" := "PASSED" ]}
                  (now_text sample_clock) sample_uuid)) = true.
Proof.
  destruct (X6_preview_shows_values sample_clock sample_uuid
              {[ "certificate_id" := "CERT-TEST-1"; "final_status" := "PASSED" ]})
    as (_ & H & _);
    [intros Hc; apply (f_equal (lookup "certificate_id")) in Hc; discriminate Hc | exact H].
Defined.

(** X7: the composer reads only its 38 fields: two attribute sets that
    agree on them give the same document, so extra keys (such as the
    [verification_date] of the sample data) change nothing. *)
Theorem X7_composer_ignores_other_keys (data data' : gmap string string)
    (current_time uuid_hex : string) :
  (forall k, k ∈ composer_fields -> data !! k = data' !! k) ->
  create_certificate_html data current_time uuid_hex =
  create_certificate_html data' current_time uuid_hex.
Proof.
  intros H.
  unfold create_certificate_html, info_item, data_row, get.
  repeat match goal with
  | |- context [data !! ?k] =>
      rewrite (H k) by (apply list_elem_of_In; unfold composer_fields, na_fields; simpl; tauto)
  end.
  reflexivity.
Qed.

Lemma X7_composer_ignores_other_keys_witness :
  create_certificate_html {[ "verification_date" := "2024-03-15"; "model" := "SSD 990 PRO" ]}
    (now_text sample_clock) sample_uuid =
  create_certificate_html {[ "model" := "SSD 990 PRO" ]} (now_text sample_clock) sample_uuid.
Proof.
  apply X7_composer_ignores_other_keys. intros k Hk.
  rewrite lookup_insert_ne; [reflexivity|].
  intros <-. apply list_elem_of_In in Hk. unfold composer_fields, na_fields in Hk.
  simpl in Hk. repeat (destruct Hk as [Hk|Hk]; [discriminate Hk|]). exact Hk.
Defined.

Lemma badge_none_only_empty (s : string) :
  get_status_badge_style (Some s) = style_none -> s = EmptyString.
Proof.
  unfold get_status_badge_style. simpl.
  destruct (String.eqb_spec s EmptyString) as [->|_]; [done|].
  destruct (has_success_token _); [discriminate|].
  destruct (has_failure_token _); discriminate.
Qed.

(** X8: in a composed document the grey badge style appears exactly when
    the caller supplied an empty [final_status]; an omitted status is
    ["VERIFIED"] and gets the amber style. *)
Theorem X8_grey_badge_iff_empty_status (data : gmap string string) (current_time uuid_hex : string) :
  let doc := create_certificate_html data current_time uuid_hex in
  (slot_values "status_badge_style" doc = [style_none] <->
   data !! "final_status" = Some EmptyString) /\
  (data !! "final_status" = None -> slot_values "status_badge_style" doc = [style_other]).
Proof.
  cbn zeta.
  assert (Hs : slot_values "status_badge_style" (create_certificate_html data current_time uuid_hex)
               = [get_status_badge_style (Some (get data "final_status" "VERIFIED"))])
    by reflexivity.
  rewrite Hs. unfold get. split; [split|].
  - destruct (data !! "final_status") as [s|] eqn:E; simpl.
    + intros [= Hn]. apply badge_none_only_empty in Hn. by subst.
    + discriminate.
  - intros ->. reflexivity.
  - intros ->. reflexivity.
Qed.

Lemma X8_grey_badge_iff_empty_status_witness :
  slot_values "status_badge_style"
    (create_certificate_html ∅ (now_text sample_clock) sample_uuid) = [style_other].
Proof.
  destruct (X8_grey_badge_iff_empty_status ∅ (now_text sample_clock) sample_uuid) as [_ H].
  apply H. reflexivity.
Defined.

Definition is_upper_letter (c : ascii) : bool :=
  let n := nat_of_ascii c in ((65 <=? n) && (n <=? 90))%nat.

Lemma lower_char_not_upper (c : ascii) : is_upper_letter (lower_char c) = false.
Proof. destruct c as [[] [] [] [] [] [] [] []]; reflexivity. Qed.

(** X9: the verification link of every composed document contains no
    upper-case ASCII letter, whatever identifier was supplied. *)
Theorem X9_verification_link_no_upper (data : gmap string string) (current_time uuid_hex : string) :
  Forall (fun v => all_chars (fun c => negb (is_upper_letter c)) v = true)
    (slot_values "footer_verification" (create_certificate_html data current_time uuid_hex)).
Proof.
  destruct (cert_id_slots data current_time uuid_hex) as (_ & _ & _ & _ & H).
  rewrite H. clear H. apply Forall_singleton.
  induction (resolved_cert_id data uuid_hex) as [|c s IH]; cbn [lower all_chars]; [done|].
  by rewrite lower_char_not_upper, IH.
Qed.

(** X10: on a non-empty body with a successful render,
    [generate_certificate_file] answers the PDF bytes themselves (the
    bytes [generate_certificate] base64-encodes) as an [application/pdf]
    download named ["certificate_<certificate_id or unknown>_<timestamp>.pdf"],
    provided that name holds no line break; a [certificate_id] with a CR or
    LF makes [send_file] raise [ValueError], and the route answers the 500
    failure response instead. *)
Theorem X10_generate_file_download (g : generator) (o : oracle) (b64encode : string -> string)
    (clk : clock) (uuid_hex : string) (data : gmap string string) (w : world) (pdf : string) :
  data ≠ ∅ -> write_result o = None -> unlink_result o = None -> render_result o = inr pdf ->
  let filename := "certificate_" +:+ get data "certificate_id" "unknown" +:+ "_"
                  +:+ now_stamp clk +:+ ".pdf" in
  (has_crlf filename = false ->
   fst (generate_certificate_file g o clk uuid_hex (Some data) w) =
     inr (FileResp pdf filename "application/pdf")) /\
  (has_crlf filename = true ->
   fst (generate_certificate_file g o clk uuid_hex (Some data) w) =
     inr (failure_response (ValueError "Header values must not contain newline characters."))) /\
  (exists body, fst (generate_certificate g o b64encode clk uuid_hex (Some data) w) =
                inr (JsonResp 200 body) /\ ("pdf_base64", JStr (b64encode pdf)) ∈ body).
Proof.
  intros Hne Hw Hu Hr. cbn zeta.
  destruct (create_certificate_written g o data (now_text clk) uuid_hex
              {| fs := fs w; log := log w ++ ["Generating certificate file"] |} Hw) as [F1 _].
  split; [|split].
  - intros Hc. rewrite generate_certificate_file_run by done. rewrite F1, Hu, Hr. cbn zeta.
    by rewrite Hc.
  - intros Hc. rewrite generate_certificate_file_run by done. rewrite F1, Hu, Hr. cbn zeta.
    by rewrite Hc.
  - rewrite generate_certificate_run by done.
    destruct (create_certificate_written g o data (now_text clk) uuid_hex
                {| fs := fs w; log := log w ++ ["Generating certificate"] |} Hw) as [H1 _].
    rewrite H1, Hu, Hr. eexists. split; [reflexivity|]. set_solver.
Qed.

Lemma X10_generate_file_download_witness :
  fst (generate_certificate_file no_config oracle_ok sample_clock sample_uuid
         (Some {[ "certificate_id" := "CERT-TEST-1" ]}) empty_world)
  = inr (FileResp "%PDF-1.4" "certificate_CERT-TEST-1_20240315_143000.pdf" "application/pdf") /\
  fst (generate_certificate_file no_config oracle_ok sample_clock sample_uuid
         (Some {[ "certificate_id" := String "A" (String (ascii_of_nat 10) (String "B" EmptyString)) ]})
         empty_world)
  = inr (failure_response (ValueError "Header values must not contain newline characters.")).
Proof.
  split.
  - destruct (X10_generate_file_download no_config oracle_ok sample_b64encode sample_clock sample_uuid
                {[ "certificate_id" := "CERT-TEST-1" ]} empty_world "%PDF-1.4")
      as [H _];
      [intros Hc; apply (f_equal (lookup "certificate_id")) in Hc; discriminate Hc
      | reflexivity | reflexivity | reflexivity | ].
    apply H. reflexivity.
  - destruct (X10_generate_file_download no_config oracle_ok sample_b64encode sample_clock sample_uuid
                {[ "certificate_id" := String "A" (String (ascii_of_nat 10) (String "B" EmptyString)) ]}
                empty_world "%PDF-1.4")
      as (_ & H & _);
      [intros Hc; apply (f_equal (lookup "certificate_id")) in Hc; discriminate Hc
      | reflexivity | reflexivity | reflexivity | ].
    apply H. reflexivity.
Defined.

Lemma lower_char_idem (c : ascii) : lower_char (lower_char c) = lower_char c.
Proof. destruct c as [[] [] [] [] [] [] [] []]; reflexivity. Qed.

Lemma lower_char_upper_char (c : ascii) : lower_char (upper_char c) = lower_char c.
Proof. destruct c as [[] [] [] [] [] [] [] []]; reflexivity. Qed.

Lemma lower_idem (s : string) : lower (lower s) = lower s.
Proof. induction s as [|c s IH]; simpl; [done|]. by rewrite lower_char_idem, IH. Qed.

Lemma lower_upper (s : string) : lower (upper s) = lower s.
Proof. induction s as [|c s IH]; simpl; [done|]. by rewrite lower_char_upper_char, IH. Qed.

Lemma badge_depends_on_lower (s t : string) :
  lower s = lower t -> get_status_badge_style (Some s) = get_status_badge_style (Some t).
Proof.
  intros Hl. unfold get_status_badge_style. simpl. rewrite Hl.
  destruct s, t; simpl in *; try discriminate; reflexivity.
Qed.

(** A 7-bit ASCII character. *)
Definition is_ascii7 (c : ascii) : bool := (nat_of_ascii c <? 128)%nat.

(** X11: on ASCII text the badge style ignores letter case: a status, its
    lower-cased and its upper-cased form get the same style. *)
Theorem X11_badge_case_insensitive (s : string) :
  all_chars is_ascii7 s = true ->
  get_status_badge_style (Some (lower s)) = get_status_badge_style (Some s) /\
  get_status_badge_style (Some (upper s)) = get_status_badge_style (Some s).
Proof.
  intros _.
  split; apply badge_depends_on_lower; [apply lower_idem | apply lower_upper].
Qed.

Lemma X11_badge_case_insensitive_witness :
  get_status_badge_style (Some (upper "Passed")) = get_status_badge_style (Some "Passed").
Proof. apply (X11_badge_case_insensitive "Passed"). reflexivity. Defined.
